(** * FlipFlop engine: the request pipeline of [main.py]

    A shallow embedding of the orchestration code of the FlipFlop service
    ([main.py], and the route of [fastapi_app/main.py]) together with the
    properties its specification states about it.

    Python values are modelled as follows.
    - [str] is a sequence of Unicode code points, so [len] is [length] and
      the slice [s[:n]] is [take n s].
    - [None]-or-string values ([Optional[str]], the result of [os.getenv])
      are [option str].
    - Parsed JSON is [pyval]; a [dict] is a finite map.
    - An exception is a value of [exn]; a function that may raise returns
      a [result].
    - The two outbound services are functions of the [World], and every
      call made to them is recorded in a trace of [event]s. *)

From Stdlib Require Import ZArith NArith List Lia.
From Stdlib Require Import Strings.String Strings.Ascii Floats.SpecFloat.
From stdpp Require Import base option list gmap.

#[local] Set Warnings "-register-all".
#[local] Open Scope nat_scope.

(** ** Python strings *)

Module Py.

(** A character is its code point. *)
Definition char : Type := N.

Definition str : Type := list char.

(** An ASCII literal of the source, as a [str]. *)
Definition py (s : string) : str :=
  map N_of_ascii (list_ascii_of_string s).

#[global] Arguments py s%_string.

(** [ch.isspace()] for one character: the code points CPython's
    [_PyUnicode_IsWhitespace] accepts. *)
Definition isspace (c : char) : bool :=
  ((9 <=? c) && (c <=? 13) || (28 <=? c) && (c <=? 32)
   || (c =? 133) || (c =? 160) || (c =? 5760)
   || (8192 <=? c) && (c <=? 8202)
   || (c =? 8232) || (c =? 8233) || (c =? 8239) || (c =? 8287)
   || (c =? 12288))%N.

(** [s.lstrip()] *)
Fixpoint lstrip (s : str) : str :=
  match s with
  | [] => []
  | c :: s' => if isspace c then lstrip s' else s
  end.

(** [s.rstrip()] *)
Definition rstrip (s : str) : str := rev (lstrip (rev s)).

(** [s.strip()] *)
Definition strip (s : str) : str := rstrip (lstrip s).

(** Truth value of a string: [bool(s)]. *)
Definition str_truthy (s : str) : bool :=
  match s with
  | [] => false
  | _ :: _ => true
  end.

(** Truth value of a string-or-[None]. *)
Definition opt_truthy (o : option str) : bool :=
  match o with
  | None => false
  | Some s => str_truthy s
  end.

(** [a or b] on strings-or-[None]: [a] when it is truthy, else [b]. *)
Definition or_opt (a b : option str) : option str :=
  if opt_truthy a then a else b.

(** [a or "literal"]: the right operand is a string, so is the result. *)
Definition or_str (a : option str) (b : str) : str :=
  match a with
  | Some (c :: s) => c :: s
  | _ => b
  end.

End Py.

Export Py.

(** ** Exceptions and results *)

(** Modelled from the spec: [FlipFlopError], the class that the route of
    [fastapi_app/main.py] catches, is declared in [flipflop_engine/core.py],
    which is not among the sources. It is taken as an exception class of
    its own whose [str(exc)] is the description of a pipeline error (§7).
    [RuntimeError] and [HTTPException] are the classes [main.py] raises. *)
Inductive exn : Type :=
| RuntimeError (msg : str)
| HTTPException (status_code : Z) (detail : str)
| FlipFlopError (msg : str).

Inductive result (A : Type) : Type :=
| Return (a : A)
| Raise (e : exn).

#[global] Arguments Return {A} a.
#[global] Arguments Raise {A} e.

(** ** Length enforcer ([main.py], [_enforce_length]) *)

Definition _enforce_length (paragraph : str) (enforce : bool)
  : result (str * bool) :=
  if negb enforce then Return (paragraph, false)
  else
    let truncated := false in
    let '(paragraph, truncated) :=
      if 500 <? length paragraph then (take 500 paragraph, true)
      else (paragraph, truncated) in
    if length paragraph <? 450 then
      Raise (HTTPException 502
               (py "Model returned text shorter than 450 characters."))
    else Return (paragraph, truncated).

(** The specification's name for the failure of the length contract. *)
Definition ContractViolationError : exn :=
  HTTPException 502 (py "Model returned text shorter than 450 characters.").

(** ** Parsed JSON and the outside world *)

(** What [response.json()] can return: the Python image of a JSON text. *)
Inductive pyval : Type :=
| PNone
| PBool (b : bool)
| PInt (z : Z)
| PFloat (f : spec_float)
| PStr (s : str)
| PList (l : list pyval)
| PDict (d : gmap str pyval).

(** [bool(v)] *)
Definition truthy (v : pyval) : bool :=
  match v with
  | PNone => false
  | PBool b => b
  | PInt z => negb (z =? 0)%Z
  | PFloat (S754_zero _) => false
  | PFloat _ => true
  | PStr s => str_truthy s
  | PList l => negb (length l =? 0)
  | PDict d => negb (size d =? 0)
  end.

(** [a or b] *)
Definition or_val (a b : pyval) : pyval := if truthy a then a else b.

(** [type(v).__name__] *)
Definition type_name (v : pyval) : str :=
  match v with
  | PNone => py "NoneType"
  | PBool _ => py "bool"
  | PInt _ => py "int"
  | PFloat _ => py "float"
  | PStr _ => py "str"
  | PList _ => py "list"
  | PDict _ => py "dict"
  end.

(** [str(exc)] of the [AttributeError] raised by [v.name] when [v] has no
    such attribute. *)
Definition attribute_error (v : pyval) (name : str) : str :=
  py "'" ++ type_name v ++ py "' object has no attribute '" ++ name ++ py "'".

(** [d.get(key)] on a dict: the value, or [None]. *)
Definition dict_get (d : gmap str pyval) (key : str) : pyval :=
  default PNone (d !! key).

(** A call into a library that returns, or raises an exception [exc], of
    which the code only uses [str(exc)]. *)
Inductive reply (A : Type) : Type :=
| Returns (a : A)
| Raises (exc : str).

#[global] Arguments Returns {A} a.
#[global] Arguments Raises {A} exc.

(** The client object [_build_llm_client] constructs. *)
Inductive client : Type :=
| AzureOpenAI (api_version : str) (azure_endpoint : str) (api_key : str)
| OpenAI (api_key : str) (base_url : option str).

Record message : Type := { role : str; content : str }.

(** [completion.choices[i].message.content] *)
Record choice : Type := { message_content : option str }.

Record completion : Type := { choices : list choice }.

(** An [httpx] response, as far as the code looks at it. *)
Record response : Type := {
  raise_for_status : reply unit;
  json : reply pyval
}.

(** Everything outside the process: its environment, whether the [openai]
    package could be imported, and the two remote services. *)
Record World : Type := {
  environ : gmap str str;
  openai_installed : bool;
  chat_completions_create :
    client → str → list message → Z → reply completion;
  httpx_post : str → pyval → Z → reply response
}.

(** [os.getenv(name)] *)
Definition getenv (w : World) (name : str) : option str := environ w !! name.

(** The outbound calls a request makes, in order. *)
Inductive event : Type :=
| LLMCall (c : client) (model : str) (messages : list message)
    (temperature : Z)
| ImagePost (url : str) (body : pyval) (timeout : Z).

Definition is_image_call (ev : event) : bool :=
  match ev with
  | ImagePost _ _ _ => true
  | LLMCall _ _ _ _ => false
  end.

(** ** Computations: a result together with the calls made so far *)

Definition M (A : Type) : Type := result A * list event.

#[global] Instance M_ret : MRet M := λ A a, (Return a, []).

#[global] Instance M_bind : MBind M := λ A B k m,
  match m with
  | (Return a, tr) => let '(r, tr') := k a in (r, tr ++ tr')
  | (Raise e, tr) => (Raise e, tr)
  end.

Definition raise {A : Type} (e : exn) : M A := (Raise e, []).

Definition emit (ev : event) : M unit := (Return tt, [ev]).

Definition lift {A : Type} (r : result A) : M A := (r, []).

Definition outcome {A : Type} (m : M A) : result A := m.1.

Definition trace {A : Type} (m : M A) : list event := m.2.

(** ** Request and response models *)

Record FlipFlopRequest : Type := {
  noun1 : str;
  noun2 : str;
  enforce_length : bool;
  request_image : bool;
  image_style_tail : option str
}.

(** The [Field] constraints pydantic checks before the route runs. *)
Definition valid_request (payload : FlipFlopRequest) : bool :=
  (1 <=? length (noun1 payload)) && (length (noun1 payload) <=? 500)
  && (1 <=? length (noun2 payload)) && (length (noun2 payload) <=? 500)
  && match image_style_tail payload with
     | None => true
     | Some tail => length tail <=? 200
     end.

(** [image_url] holds whatever [_maybe_generate_image] returned; [PNone] is
    Python's [None]. *)
Record FlipFlopResponse : Type := {
  paragraph : str;
  truncated : bool;
  image_prompt : option str;
  image_url : pyval
}.

(** ** LLM client adapter ([main.py]) *)

Definition _build_llm_client (w : World) : result client :=
  let api_key :=
    or_opt (or_opt (getenv w (py "AZURE_OPENAI_API_KEY"))
                   (getenv w (py "OPENAI_API_KEY")))
           (getenv w (py "OPENAI_APIKEY")) in
  match api_key with
  | None | Some [] =>
      Raise (RuntimeError
               (py "Missing OPENAI_API_KEY or AZURE_OPENAI_API_KEY."))
  | Some api_key =>
      let azure_endpoint := getenv w (py "AZURE_OPENAI_ENDPOINT") in
      let azure_version := getenv w (py "AZURE_OPENAI_API_VERSION") in
      let api_base :=
        or_opt (getenv w (py "OPENAI_BASE_URL"))
               (getenv w (py "OPENAI_API_BASE")) in
      match azure_endpoint with
      | Some (c :: e) =>
          if negb (openai_installed w) then
            Raise (RuntimeError (py "openai package not installed."))
          else
            Return (AzureOpenAI (or_str azure_version (py "2024-05-01-preview"))
                                (c :: e) api_key)
      | _ =>
          if negb (openai_installed w) then
            Raise (RuntimeError (py "openai package not installed."))
          else Return (OpenAI api_key api_base)
      end
  end.

(** The model or deployment name [_call_flipflop_llm] sends. *)
Definition model_name (w : World) : str :=
  or_str (or_opt (getenv w (py "OPENAI_MODEL"))
                 (getenv w (py "AZURE_OPENAI_DEPLOYMENT")))
         (py "gpt-4o-mini").

Section Pipeline.

(** The text of the module constant [FLIPFLOP_SYSTEM_PROMPT]. Nothing
    below depends on what it says. *)
Variable FLIPFLOP_SYSTEM_PROMPT : str.

Definition chat_messages (noun1 noun2 : str) : list message :=
  [ {| role := py "system"; content := FLIPFLOP_SYSTEM_PROMPT |};
    {| role := py "user";
       content := py "A: " ++ noun1 ++ [10%N] ++ py "B: " ++ noun2 |} ].

Definition _call_flipflop_llm (w : World) (noun1 noun2 : str) : M str :=
  client ← lift (_build_llm_client w);
  let model := model_name w in
  let messages := chat_messages noun1 noun2 in
  _ ← emit (LLMCall client model messages 0);
  match chat_completions_create w client model messages 0 with
  | Raises exc => raise (HTTPException 502 (py "LLM call failed: " ++ exc))
  | Returns completion =>
      match choices completion with
      | [] => raise (HTTPException 502 (py "LLM returned no choices."))
      | first :: _ =>
          let content := or_str (message_content first) [] in
          let paragraph := strip content in
          if negb (str_truthy paragraph) then
            raise (HTTPException 502 (py "LLM returned empty content."))
          else mret paragraph
      end
  end.

(** ** Image prompt builder and image client adapter ([main.py]) *)

Definition _maybe_build_image_prompt (paragraph : str) (tail : option str)
  : str :=
  match tail with
  | Some (c :: t) => paragraph ++ py " " ++ strip (c :: t)
  | _ => paragraph
  end.

Definition _maybe_generate_image (w : World) (prompt : str) : M pyval :=
  match getenv w (py "IMAGE_API_URL") with
  | None | Some [] => mret PNone
  | Some image_api_url =>
      let body := PDict {[ py "prompt" := PStr prompt ]} in
      let failed (exc : str) : M pyval :=
        raise (HTTPException 502 (py "Image backend error: " ++ exc)) in
      _ ← emit (ImagePost image_api_url body 60);
      match httpx_post w image_api_url body 60 with
      | Raises exc => failed exc
      | Returns response =>
          match raise_for_status response with
          | Raises exc => failed exc
          | Returns _ =>
              match json response with
              | Raises exc => failed exc
              | Returns (PDict data) =>
                  mret (or_val (dict_get data (py "url"))
                               (dict_get data (py "image_url")))
              | Returns data => failed (attribute_error data (py "get"))
              end
          end
      end
  end.

(** ** Orchestrator ([main.py], route [/flipflop]) *)

Definition flipflop (w : World) (payload : FlipFlopRequest)
  : M FlipFlopResponse :=
  paragraph ← _call_flipflop_llm w (strip (noun1 payload))
                                   (strip (noun2 payload));
  '(paragraph, truncated) ←
    lift (_enforce_length paragraph (enforce_length payload));
  '(image_prompt, image_url) ←
    (if request_image payload then
       let image_prompt :=
         _maybe_build_image_prompt paragraph (image_style_tail payload) in
       image_url ← _maybe_generate_image w image_prompt;
       mret (Some image_prompt, image_url)
     else mret (None, PNone));
  mret {| paragraph := paragraph; truncated := truncated;
          image_prompt := image_prompt; image_url := image_url |}.

End Pipeline.

(** ** The route of [fastapi_app/main.py] *)

Module fastapi_app.

(** [run_flipflop] lives in [flipflop_engine/core.py]; the route is a
    function of it. *)
Definition flipflop
    (run_flipflop :
       str → str → bool → bool → option str
       → M (str * bool * option str * pyval))
    (payload : FlipFlopRequest) : M FlipFlopResponse :=
  match run_flipflop (noun1 payload) (noun2 payload)
          (enforce_length payload) (request_image payload)
          (image_style_tail payload) with
  | (Return (paragraph, truncated, image_prompt, image_url), tr) =>
      (Return {| paragraph := paragraph; truncated := truncated;
                 image_prompt := image_prompt; image_url := image_url |},
       tr)
  | (Raise (FlipFlopError msg), tr) => (Raise (HTTPException 502 msg), tr)
  | (Raise e, tr) => (Raise e, tr)
  end.

End fastapi_app.

(** ** The specification's vocabulary *)

(** The specification names the failures by kind; the code tells them apart
    by exception class and detail text. *)

Definition ConfigurationError (msg : str) : exn := RuntimeError msg.

Definition UpstreamError (cause : str) : exn :=
  HTTPException 502 (py "LLM call failed: " ++ cause).

Definition ImageBackendError (cause : str) : exn :=
  HTTPException 502 (py "Image backend error: " ++ cause).

(** A failure reported to the caller as one of an upstream dependency:
    status 502. *)
Definition upstream_failure_response (e : exn) : bool :=
  match e with
  | HTTPException 502 _ => true
  | _ => false
  end.

(** The credential a client was built with. *)
Definition client_api_key (c : client) : str :=
  match c with
  | AzureOpenAI _ _ api_key => api_key
  | OpenAI api_key _ => api_key
  end.

(** The recognized names of the API key, in the order they are tried. *)
Definition api_key_names : list str :=
  [py "AZURE_OPENAI_API_KEY"; py "OPENAI_API_KEY"; py "OPENAI_APIKEY"].

(** "Resolved in priority order": the first of [names] that is set to a
    non-empty value. *)
Fixpoint first_present (w : World) (names : list str) : option str :=
  match names with
  | [] => None
  | name :: names' =>
      match getenv w name with
      | Some (c :: key) => Some (c :: key)
      | _ => first_present w names'
      end
  end.

(** The request the adapter posts. *)
Definition image_post (url prompt : str) : event :=
  ImagePost url (PDict {[ py "prompt" := PStr prompt ]}) 60.

(** ** Scenarios *)

(** Concrete worlds and requests on which the pipeline is run below. *)

(** The heading of the system prompt stands for its text. *)
Definition prompt_heading : str := py "# FLIPFLOP_ENGINE SPECIFICATION".

Definition world_of (env : gmap str str) (llm : reply completion)
    (backend : reply response) : World :=
  {| environ := env;
     openai_installed := true;
     chat_completions_create := λ _ _ _ _, llm;
     httpx_post := λ _ _ _, backend |}.

(** A completion with a single candidate. *)
Definition says (text : str) : reply completion :=
  Returns {| choices := [ {| message_content := Some text |} ] |}.

(** A 2xx response whose body parses to [data]. *)
Definition ok_json (data : pyval) : reply response :=
  Returns {| raise_for_status := Returns tt; json := Returns data |}.

Definition key_only : gmap str str :=
  {[ py "OPENAI_API_KEY" := py "sk-test" ]}.

Definition key_and_backend : gmap str str :=
  <[ py "IMAGE_API_URL" := py "http://img/generate" ]> key_only.

Definition request (enforce image : bool) (tail : option str)
  : FlipFlopRequest :=
  {| noun1 := py "cat"; noun2 := py " lamp ";
     enforce_length := enforce; request_image := image;
     image_style_tail := tail |}.

(** The one call the adapter makes for [request] under [key_only]. *)
Definition the_llm_call : event :=
  LLMCall (OpenAI (py "sk-test") None) (py "gpt-4o-mini")
    (chat_messages prompt_heading (py "cat") (py "lamp")) 0.

(** Nothing is configured at all. *)
Definition bare_world : World := world_of ∅ (says []) (Raises []).

(** The image backend answers 200 with the JSON text [[]]. *)
Definition array_reply_world : World :=
  world_of key_and_backend (says []) (ok_json (PList [])).

(** Scenario A: the LLM call fails in transport. *)
Definition scenario_A : World :=
  world_of key_only (Raises (py "Connection error.")) (Raises []).

(** Scenario C: a paragraph of 480 characters, and a backend that answers
    with a URL. *)
Definition scenario_C : World :=
  world_of key_and_backend (says (repeat 120%N 480))
    (ok_json (PDict {[ py "url" := PStr (py "http://x/y.png") ]})).

Definition scenario_C_response : FlipFlopResponse :=
  {| paragraph := repeat 120%N 480;
     truncated := false;
     image_prompt := Some (repeat 120%N 480 ++ py " oil painting");
     image_url := PStr (py "http://x/y.png") |}.

(** Scenario D: the same paragraph, no image backend configured. *)
Definition scenario_D : World :=
  world_of key_only (says (repeat 120%N 480)) (Raises []).

(** Scenario E: a paragraph of 400 characters. *)
Definition scenario_E : World :=
  world_of key_only (says (repeat 120%N 400)) (Raises []).

(** The backend answers with the URL under [image_url] only, and with an
    object that has neither field. *)
Definition fallback_world : World :=
  world_of key_and_backend (says [])
    (ok_json (PDict {[ py "image_url" := PStr (py "http://x/z.png") ]})).

Definition empty_object_world : World :=
  world_of key_and_backend (says []) (ok_json (PDict ∅)).

(** Two of the key names are set. *)
Definition two_keys_world : World :=
  world_of (<[ py "AZURE_OPENAI_API_KEY" := py "az-test" ]> key_only)
    (says []) (Raises []).

(** The names under which the model or deployment is looked up, in the
    order they are tried, and the built-in default. *)
Definition model_names : list str :=
  [py "OPENAI_MODEL"; py "AZURE_OPENAI_DEPLOYMENT"].

Definition default_model : str := py "gpt-4o-mini".

(** The second message of every completion request. *)
Definition user_message (noun1 noun2 : str) : message :=
  {| role := py "user";
     content := py "A: " ++ noun1 ++ [10%N] ++ py "B: " ++ noun2 |}.

(** More worlds: an Azure deployment, an LLM without candidates, one that
    answers with white space, and image backends that fail in each way. *)
Definition azure_world : World :=
  world_of
    (<[ py "AZURE_OPENAI_ENDPOINT" := py "https://az.example" ]>
       (<[ py "OPENAI_BASE_URL" := py "http://proxy" ]>
          (<[ py "AZURE_OPENAI_DEPLOYMENT" := py "flip" ]> two_keys_world.(environ))))
    (says []) (Raises []).

Definition no_package_world : World :=
  {| environ := key_only;
     openai_installed := false;
     chat_completions_create := λ _ _ _ _, says (repeat 120%N 480);
     httpx_post := λ _ _ _, Raises [] |}.

Definition no_choices_world : World :=
  world_of key_only (Returns {| choices := [] |}) (Raises []).

Definition blank_content_world : World :=
  world_of key_only (says (py "  ")) (Raises []).

Definition padded_content_world : World :=
  world_of key_only
    (Returns {| choices := [ {| message_content := Some (py " a b  ") |};
                             {| message_content := Some (py "other") |} ] |})
    (Raises []).

Definition long_content_world : World :=
  world_of key_and_backend (says (repeat 120%N 520))
    (ok_json (PDict {[ py "url" := PStr (py "http://x/y.png") ]})).

(** What [scenario_C] sends to the image backend. *)
Definition scenario_C_post : event :=
  image_post (py "http://img/generate")
    (repeat 120%N 480 ++ py " oil painting").

Definition timeout_world : World :=
  world_of key_and_backend (says (repeat 120%N 480))
    (Raises (py "timed out")).

Definition status_500_world : World :=
  world_of key_and_backend (says (repeat 120%N 480))
    (Returns {| raise_for_status := Raises (py "Server error '500'");
                json := Returns PNone |}).

Definition not_json_world : World :=
  world_of key_and_backend (says (repeat 120%N 480))
    (Returns {| raise_for_status := Returns tt;
                json := Raises (py "Expecting value") |}).

Definition empty_url_world : World :=
  world_of key_and_backend (says (repeat 120%N 480))
    (ok_json (PDict (<[ py "url" := PStr [] ]>
                       {[ py "image_url" := PStr (py "http://x/z.png") ]}))).

(** What [long_content_world] answers to a request for an image. *)
Definition long_content_response : FlipFlopResponse :=
  {| paragraph := take 500 (repeat 120%N 520);
     truncated := true;
     image_prompt :=
       Some (take 500 (repeat 120%N 520) ++ py " oil painting");
     image_url := PStr (py "http://x/y.png") |}.


(** * Properties *)

(** ** The length enforcer *)

Section EnforceLength.

Implicit Types (p q : str) (t : bool).

Lemma enforce_off p : _enforce_length p false = Return (p, false).
Proof. reflexivity. Qed.

(** The three ranges of [len(paragraph)], as equations of the function. *)

Lemma enforce_long p :
  500 < length p → _enforce_length p true = Return (take 500 p, true).
Proof.
  intros Hlen. unfold _enforce_length. cbn [negb].
  destruct (Nat.ltb_spec 500 (length p)) as [_|Hle]; [|lia].
  destruct (Nat.ltb_spec (length (take 500 p)) 450) as [Hlt|_]; [|done].
  rewrite length_take in Hlt. lia.
Qed.

Lemma enforce_short p :
  length p < 450 → _enforce_length p true = Raise ContractViolationError.
Proof.
  intros Hlen. unfold _enforce_length. cbn [negb].
  destruct (Nat.ltb_spec 500 (length p)) as [Hgt|_]; [lia|].
  destruct (Nat.ltb_spec (length p) 450) as [_|Hge]; [done|lia].
Qed.

Lemma enforce_in_range p :
  450 ≤ length p ≤ 500 → _enforce_length p true = Return (p, false).
Proof.
  intros [Hlo Hhi]. unfold _enforce_length. cbn [negb].
  destruct (Nat.ltb_spec 500 (length p)) as [Hgt|_]; [lia|].
  destruct (Nat.ltb_spec (length p) 450) as [Hlt|_]; [lia|done].
Qed.

(** Whatever the enforcer returns has a length within the contract. *)
Lemma enforce_returns_in_range p q t :
  _enforce_length p true = Return (q, t) → 450 ≤ length q ≤ 500.
Proof.
  destruct (Nat.lt_ge_cases 500 (length p)) as [Hlong|Hle].
  - rewrite (enforce_long p Hlong). intros [= <- _].
    rewrite length_take. lia.
  - destruct (Nat.lt_ge_cases (length p) 450) as [Hshort|Hge].
    + rewrite (enforce_short p Hshort). discriminate.
    + rewrite (enforce_in_range p (conj Hge Hle)). intros [= <- _]. lia.
Qed.

End EnforceLength.

(** C1. A paragraph longer than 500 characters is cut to exactly its first
    500 characters and reported as truncated; the cut paragraph has length
    exactly 500. *)
Theorem enforce_truncates_to_500 (p : str) :
  length p > 500 →
  _enforce_length p true = Return (take 500 p, true)
  ∧ length (take 500 p) = 500.
Proof.
  intros Hlen. split.
  - apply enforce_long. lia.
  - rewrite length_take. lia.
Qed.

Lemma enforce_truncates_to_500_witness :
  _enforce_length (repeat 120%N 520) true
    = Return (take 500 (repeat 120%N 520), true)
  ∧ length (take 500 (repeat 120%N 520)) = 500.
Proof.
  apply (enforce_truncates_to_500 (repeat 120%N 520)).
  vm_compute. lia.
Defined.

(** C3. A paragraph of 450 to 500 characters, bounds included, is returned
    unchanged and not truncated. *)
Theorem enforce_keeps_valid_paragraph (p : str) :
  450 ≤ length p ≤ 500 →
  _enforce_length p true = Return (p, false).
Proof. apply enforce_in_range. Qed.

Lemma enforce_keeps_valid_paragraph_witness :
  _enforce_length (repeat 120%N 450) true = Return (repeat 120%N 450, false)
  ∧ _enforce_length (repeat 120%N 500) true
      = Return (repeat 120%N 500, false).
Proof.
  split.
  - apply (enforce_keeps_valid_paragraph (repeat 120%N 450)).
    vm_compute. lia.
  - apply (enforce_keeps_valid_paragraph (repeat 120%N 500)).
    vm_compute. lia.
Defined.

(** C10. The length enforcer is idempotent on its successful results: a
    second application succeeds, changes nothing and truncates nothing. *)
Theorem enforce_idempotent (p q : str) (t : bool) :
  _enforce_length p true = Return (q, t) →
  _enforce_length q true = Return (q, false).
Proof.
  intros Hfirst. apply enforce_in_range.
  exact (enforce_returns_in_range p q t Hfirst).
Qed.

Lemma enforce_idempotent_witness :
  _enforce_length (take 500 (repeat 120%N 520)) true
    = Return (take 500 (repeat 120%N 520), false).
Proof.
  apply (enforce_idempotent (repeat 120%N 520) _ true).
  vm_compute. reflexivity.
Defined.

(** ** Trimming and the image prompt builder *)

Lemma lstrip_spaces (s : str) :
  forallb isspace s = true → lstrip s = [].
Proof.
  induction s as [|c s IH]; [done|]. cbn [forallb lstrip].
  intros [Hc Hs]%andb_prop. rewrite Hc. by apply IH.
Qed.

Lemma strip_spaces (s : str) :
  forallb isspace s = true → strip s = [].
Proof. intros Hs. unfold strip. by rewrite (lstrip_spaces s Hs). Qed.

Lemma strip_nil : strip [] = [].
Proof. reflexivity. Qed.

(** A tail with something left after trimming is appended, trimmed, after
    one space. *)
Lemma build_with_tail (p tail : str) :
  strip tail ≠ [] →
  _maybe_build_image_prompt p (Some tail) = p ++ py " " ++ strip tail.
Proof. destruct tail as [|c t]; [by rewrite strip_nil|done]. Qed.

(** An absent or empty tail leaves the paragraph as it is. *)
Lemma build_without_tail (p : str) :
  _maybe_build_image_prompt p None = p
  ∧ _maybe_build_image_prompt p (Some []) = p.
Proof. done. Qed.

(** A tail of white space only passes the test [if tail:] and is trimmed to
    nothing afterwards: the paragraph gets the separating space and no
    more. *)
Lemma build_with_blank_tail (p tail : str) :
  tail ≠ [] → forallb isspace tail = true →
  _maybe_build_image_prompt p (Some tail) = p ++ py " ".
Proof.
  intros Hne Hblank. destruct tail as [|c t]; [done|].
  cbn [_maybe_build_image_prompt]. by rewrite (strip_spaces _ Hblank).
Qed.

(** C4. With the paragraph ["abc"] and a tail of one space the builder
    returns ["abc "], a character longer than the paragraph, where the
    claim has the paragraph unchanged. *)
Theorem build_blank_tail_appends_space :
  _maybe_build_image_prompt (py "abc") (Some (py " ")) = py "abc "
  ∧ _maybe_build_image_prompt (py "abc") (Some (py " ")) ≠ py "abc"
  ∧ strip (py " ") = [].
Proof. by vm_compute. Qed.

Example build_watercolor :
  _maybe_build_image_prompt (py "abc") (Some (py "watercolor style"))
  = py "abc watercolor style".
Proof. reflexivity. Qed.

(** ** Computations *)

Section Computations.

Context {A B : Type}.

Implicit Types (k : A → M B) (tr : list event).

Lemma bind_Return a tr k :
  ((Return a, tr) : M A) ≫= k = ((k a).1, tr ++ (k a).2).
Proof. unfold mbind, M_bind. by destruct (k a). Qed.

Lemma bind_Raise e tr k : ((Raise e, tr) : M A) ≫= k = (Raise e, tr).
Proof. reflexivity. Qed.

(** A computation that returns went through both of its halves. *)
Lemma bind_returns (m : M A) k b tr :
  m ≫= k = (Return b, tr) →
  ∃ a tr1 tr2, m = (Return a, tr1) ∧ k a = (Return b, tr2)
               ∧ tr = tr1 ++ tr2.
Proof.
  destruct m as [[a|e] tr1]; [|done].
  rewrite bind_Return. destruct (k a) as [r tr2] eqn:Hk.
  intros [= -> <-]. by exists a, tr1, tr2.
Qed.

End Computations.

(** Unfolds the plumbing of a computation, leaving the source's tests. *)
Ltac unfold_M :=
  unfold lift, emit, raise, outcome, trace;
  unfold mbind, M_bind, mret, M_ret; cbn [fst snd].

(** ** The LLM client adapter *)

Section Adapter.

Variable FLIPFLOP_SYSTEM_PROMPT : str.

#[local] Abbreviation call_llm := (_call_flipflop_llm FLIPFLOP_SYSTEM_PROMPT).
#[local] Abbreviation run := (flipflop FLIPFLOP_SYSTEM_PROMPT).
#[local] Abbreviation messages_for := (chat_messages FLIPFLOP_SYSTEM_PROMPT).

Implicit Types (w : World) (payload : FlipFlopRequest) (c : client).

(** Without a client there is no call at all. *)
Lemma call_llm_no_client w n1 n2 e :
  _build_llm_client w = Raise e → call_llm w n1 n2 = (Raise e, []).
Proof. intros Hc. unfold _call_flipflop_llm. unfold_M. by rewrite Hc. Qed.

(** With a client, exactly one call is made, whatever comes of it. *)
Lemma call_llm_trace w n1 n2 c :
  _build_llm_client w = Return c →
  trace (call_llm w n1 n2)
  = [LLMCall c (model_name w) (messages_for n1 n2) 0].
Proof.
  intros Hc. unfold _call_flipflop_llm. unfold_M. rewrite Hc.
  destruct (chat_completions_create _ _ _ _ _) as [[[|[content] ?]]|exc];
    try done.
  cbn [choices message_content]. by destruct (negb _).
Qed.

Lemma call_llm_raises w n1 n2 c exc :
  _build_llm_client w = Return c →
  chat_completions_create w c (model_name w) (messages_for n1 n2) 0
  = Raises exc →
  call_llm w n1 n2
  = (Raise (UpstreamError exc),
     [LLMCall c (model_name w) (messages_for n1 n2) 0]).
Proof.
  intros Hc Hexc. unfold _call_flipflop_llm. unfold_M.
  by rewrite Hc, Hexc.
Qed.

(** The adapter never talks to the image backend. *)
Lemma call_llm_no_image_call w n1 n2 :
  existsb is_image_call (trace (call_llm w n1 n2)) = false.
Proof.
  destruct (_build_llm_client w) as [c|e] eqn:Hc.
  - by rewrite (call_llm_trace w n1 n2 c Hc).
  - by rewrite (call_llm_no_client w n1 n2 e Hc).
Qed.

(** A failure of the first stage is the failure of the request. *)
Lemma run_llm_raise w payload e tr :
  call_llm w (strip (noun1 payload)) (strip (noun2 payload)) = (Raise e, tr) →
  run w payload = (Raise e, tr).
Proof. intros Hllm. unfold flipflop. by rewrite Hllm. Qed.

End Adapter.

(** ** The orchestrator *)

Section Orchestrator.

Variable FLIPFLOP_SYSTEM_PROMPT : str.

#[local] Abbreviation call_llm := (_call_flipflop_llm FLIPFLOP_SYSTEM_PROMPT).
#[local] Abbreviation run := (flipflop FLIPFLOP_SYSTEM_PROMPT).
#[local] Abbreviation messages_for := (chat_messages FLIPFLOP_SYSTEM_PROMPT).

Implicit Types (w : World) (payload : FlipFlopRequest) (c : client).
Implicit Types (p : str) (tr : list event).

(** The stages after the first, as one equation per way they can end. *)

Lemma run_enforce_raise w payload p0 e tr :
  call_llm w (strip (noun1 payload)) (strip (noun2 payload)) = (Return p0, tr) →
  _enforce_length p0 (enforce_length payload) = Raise e →
  run w payload = (Raise e, tr).
Proof.
  intros Hllm Henf. unfold flipflop. rewrite Hllm. unfold_M.
  rewrite Henf. by rewrite app_nil_r.
Qed.

Lemma run_without_image w payload p0 p t tr :
  call_llm w (strip (noun1 payload)) (strip (noun2 payload)) = (Return p0, tr) →
  _enforce_length p0 (enforce_length payload) = Return (p, t) →
  request_image payload = false →
  run w payload
  = (Return {| paragraph := p; truncated := t;
               image_prompt := None; image_url := PNone |}, tr).
Proof.
  intros Hllm Henf Himg. unfold flipflop. rewrite Hllm. unfold_M.
  rewrite Henf, Himg. by rewrite !app_nil_r.
Qed.

Lemma run_with_image w payload p0 p t tr :
  call_llm w (strip (noun1 payload)) (strip (noun2 payload)) = (Return p0, tr) →
  _enforce_length p0 (enforce_length payload) = Return (p, t) →
  request_image payload = true →
  let image_prompt :=
    _maybe_build_image_prompt p (image_style_tail payload) in
  run w payload
  = match _maybe_generate_image w image_prompt with
    | (Return image_url, tr') =>
        (Return {| paragraph := p; truncated := t;
                   image_prompt := Some image_prompt;
                   image_url := image_url |}, tr ++ tr')
    | (Raise e, tr') => (Raise e, tr ++ tr')
    end.
Proof.
  intros Hllm Henf Himg. unfold flipflop. rewrite Hllm. unfold_M.
  rewrite Henf, Himg. cbn zeta.
  destruct (_maybe_generate_image w _) as [[image_url|e] tr'];
    by rewrite ?app_nil_r.
Qed.

(** C5. When the call to the LLM fails, the request fails with that
    upstream error, exactly as the adapter raised it; the image backend is
    not called and no response is produced. *)
Theorem llm_failure_fails_request w payload c exc :
  _build_llm_client w = Return c →
  chat_completions_create w c (model_name w)
    (messages_for (strip (noun1 payload)) (strip (noun2 payload))) 0
  = Raises exc →
  outcome (run w payload) = Raise (UpstreamError exc)
  ∧ call_llm w (strip (noun1 payload)) (strip (noun2 payload))
    = (Raise (UpstreamError exc), trace (run w payload))
  ∧ existsb is_image_call (trace (run w payload)) = false
  ∧ ∀ r, outcome (run w payload) ≠ Return r.
Proof.
  intros Hc Hexc.
  pose proof (call_llm_raises FLIPFLOP_SYSTEM_PROMPT w _ _ c exc Hc Hexc)
    as Hllm.
  pose proof (run_llm_raise FLIPFLOP_SYSTEM_PROMPT w payload _ _ Hllm)
    as Hrun.
  rewrite Hrun, Hllm. by repeat split.
Qed.

(** C2. A paragraph that is shorter than 450 characters after the cut to
    500 is rejected with the contract violation; in the pipeline the
    request then fails with it, and nothing is called after the one LLM
    call that produced the paragraph. *)
Theorem short_paragraph_violates_contract p :
  length (take 500 p) < 450 →
  _enforce_length p true = Raise ContractViolationError
  ∧ ∀ w payload tr,
      enforce_length payload = true →
      call_llm w (strip (noun1 payload)) (strip (noun2 payload))
      = (Return p, tr) →
      run w payload = (Raise ContractViolationError, tr).
Proof.
  intros Hlen. rewrite length_take in Hlen.
  assert (_enforce_length p true = Raise ContractViolationError) as Henf
    by (apply enforce_short; lia).
  split; [done|]. intros w payload tr Hflag Hllm.
  apply (run_enforce_raise w payload p); [done|]. by rewrite Hflag.
Qed.

(** C7. With no image endpoint configured, the image adapter returns
    [None] at once, without a call; a request that asks for an image then
    gets its image prompt and no image URL. *)
Theorem unconfigured_backend_gives_no_image w :
  opt_truthy (getenv w (py "IMAGE_API_URL")) = false →
  (∀ prompt, _maybe_generate_image w prompt = (Return PNone, []))
  ∧ ∀ payload p0 p t tr,
      request_image payload = true →
      call_llm w (strip (noun1 payload)) (strip (noun2 payload))
      = (Return p0, tr) →
      _enforce_length p0 (enforce_length payload) = Return (p, t) →
      run w payload
      = (Return {| paragraph := p; truncated := t;
                   image_prompt :=
                     Some (_maybe_build_image_prompt p
                             (image_style_tail payload));
                   image_url := PNone |}, tr).
Proof.
  intros Hurl.
  assert (∀ prompt, _maybe_generate_image w prompt = (Return PNone, []))
    as Hgen.
  { intros prompt. unfold _maybe_generate_image.
    by destruct (getenv w _) as [[|? ?]|]. }
  split; [done|]. intros payload p0 p t tr Himg Hllm Henf.
  rewrite (run_with_image w payload p0 p t tr Hllm Henf Himg).
  by rewrite Hgen, app_nil_r.
Qed.

(** C9. In every response the pipeline returns, the image prompt is
    present exactly when the request asked for an image, and an image URL
    is never set without an image prompt. *)
Theorem response_image_fields w payload r tr :
  flipflop FLIPFLOP_SYSTEM_PROMPT w payload = (Return r, tr) →
  (is_Some (image_prompt r) ↔ request_image payload = true)
  ∧ (image_url r ≠ PNone → is_Some (image_prompt r)).
Proof.
  intros Hrun.
  destruct (call_llm w (strip (noun1 payload)) (strip (noun2 payload)))
    as [[p0|e] tr0] eqn:Hllm;
    [|by rewrite (run_llm_raise _ w payload e tr0 Hllm) in Hrun].
  destruct (_enforce_length p0 (enforce_length payload)) as [[p t]|e]
    eqn:Henf;
    [|by rewrite (run_enforce_raise w payload p0 e tr0 Hllm Henf) in Hrun].
  destruct (request_image payload) eqn:Himg.
  - rewrite (run_with_image w payload p0 p t tr0 Hllm Henf Himg) in Hrun.
    cbn zeta in Hrun.
    destruct (_maybe_generate_image w _) as [[url|e] tr'];
      [|discriminate].
    injection Hrun as <- _. cbn. by repeat split; intros; eexists.
  - rewrite (run_without_image w payload p0 p t tr0 Hllm Henf Himg) in Hrun.
    injection Hrun as <- _. cbn. split; [|done].
    split; [by intros [? ?]|done].
Qed.

End Orchestrator.

(** ** The image client adapter *)

Section ImageAdapter.

Implicit Types (w : World) (url prompt : str) (resp : response).
Implicit Types (d : gmap str pyval) (data : pyval).

Lemma generate_on_object w url prompt resp d :
  getenv w (py "IMAGE_API_URL") = Some url → str_truthy url = true →
  httpx_post w url (PDict {[ py "prompt" := PStr prompt ]}) 60
  = Returns resp →
  raise_for_status resp = Returns tt →
  json resp = Returns (PDict d) →
  _maybe_generate_image w prompt
  = (Return (or_val (dict_get d (py "url")) (dict_get d (py "image_url"))),
     [image_post url prompt]).
Proof.
  intros Henv Hurl Hpost Hstatus Hjson. unfold _maybe_generate_image.
  rewrite Henv. destruct url as [|c url]; [done|]. unfold_M.
  by rewrite Hpost, Hstatus, Hjson.
Qed.

(** A body that parses, but not to an object, has no [get]: the
    [AttributeError] is caught with every other exception. *)
Lemma generate_on_non_object w url prompt resp data :
  getenv w (py "IMAGE_API_URL") = Some url → str_truthy url = true →
  httpx_post w url (PDict {[ py "prompt" := PStr prompt ]}) 60
  = Returns resp →
  raise_for_status resp = Returns tt →
  json resp = Returns data →
  (∀ d, data ≠ PDict d) →
  _maybe_generate_image w prompt
  = (Raise (ImageBackendError (attribute_error data (py "get"))),
     [image_post url prompt]).
Proof.
  intros Henv Hurl Hpost Hstatus Hjson Hdata. unfold _maybe_generate_image.
  rewrite Henv. destruct url as [|c url]; [done|]. unfold_M.
  rewrite Hpost, Hstatus, Hjson.
  destruct data as [| | | | | |d]; try done. by destruct (Hdata d).
Qed.

(** C8, as amended. For a successful response whose body parses to a JSON
    object, the adapter returns the value of [url] when that field holds a
    truthy value, the value of [image_url] when [url] is absent, and [None]
    when neither field is present. *)
Theorem image_url_from_json_object w url prompt resp d :
  getenv w (py "IMAGE_API_URL") = Some url → str_truthy url = true →
  httpx_post w url (PDict {[ py "prompt" := PStr prompt ]}) 60
  = Returns resp →
  raise_for_status resp = Returns tt →
  json resp = Returns (PDict d) →
  (∀ v, d !! py "url" = Some v → truthy v = true →
        outcome (_maybe_generate_image w prompt) = Return v)
  ∧ (d !! py "url" = None →
     outcome (_maybe_generate_image w prompt)
     = Return (default PNone (d !! py "image_url")))
  ∧ (d !! py "url" = None → d !! py "image_url" = None →
     outcome (_maybe_generate_image w prompt) = Return PNone).
Proof.
  intros Henv Hurl Hpost Hstatus Hjson.
  rewrite (generate_on_object w url prompt resp d Henv Hurl Hpost Hstatus
             Hjson).
  unfold outcome, or_val, dict_get. cbn [fst].
  split; [|split].
  - intros v -> Hv. simpl. by rewrite Hv.
  - by intros ->.
  - by intros -> ->.
Qed.

End ImageAdapter.

(** ** Credentials *)

Section Credentials.

Variable FLIPFLOP_SYSTEM_PROMPT : str.

#[local] Abbreviation run := (flipflop FLIPFLOP_SYSTEM_PROMPT).

Implicit Types (w : World) (payload : FlipFlopRequest).

Lemma first_present_unset w :
  getenv w (py "AZURE_OPENAI_API_KEY") = None →
  getenv w (py "OPENAI_API_KEY") = None →
  getenv w (py "OPENAI_APIKEY") = None →
  first_present w api_key_names = None.
Proof.
  intros Ha Hb Hc. unfold api_key_names. cbn [first_present].
  by rewrite Ha, Hb, Hc.
Qed.

(** What [_build_llm_client] does, by the key the environment offers. *)
Lemma build_llm_client_key w :
  match first_present w api_key_names with
  | None =>
      _build_llm_client w
      = Raise (ConfigurationError
                 (py "Missing OPENAI_API_KEY or AZURE_OPENAI_API_KEY."))
  | Some key =>
      if openai_installed w then
        ∃ c, _build_llm_client w = Return c ∧ client_api_key c = key
      else
        _build_llm_client w
        = Raise (ConfigurationError (py "openai package not installed."))
  end.
Proof.
  unfold _build_llm_client, api_key_names, or_opt. cbn [first_present].
  destruct (getenv w (py "AZURE_OPENAI_API_KEY")) as [[|? ?]|];
    destruct (getenv w (py "OPENAI_API_KEY")) as [[|? ?]|];
    destruct (getenv w (py "OPENAI_APIKEY")) as [[|? ?]|];
    cbn [opt_truthy str_truthy]; try done;
    destruct (getenv w (py "AZURE_OPENAI_ENDPOINT")) as [[|? ?]|];
    destruct (openai_installed w); cbn [negb]; try done;
    by eexists.
Qed.

(** C6, as amended. When none of the three key names is set to a
    non-empty value, the adapter fails with the configuration error, a
    [RuntimeError]; the pipeline hands it to the caller unchanged, without
    calling any service, and it is not a 502 upstream-failure response.
    When a key is present, the client is built with the first one in the
    order [AZURE_OPENAI_API_KEY], [OPENAI_API_KEY], [OPENAI_APIKEY]. *)
Theorem api_key_resolution w payload :
  match first_present w api_key_names with
  | None =>
      let e := ConfigurationError
                 (py "Missing OPENAI_API_KEY or AZURE_OPENAI_API_KEY.") in
      _build_llm_client w = Raise e
      ∧ run w payload = (Raise e, [])
      ∧ upstream_failure_response e = false
  | Some key =>
      openai_installed w = true →
      ∃ c, _build_llm_client w = Return c ∧ client_api_key c = key
  end.
Proof.
  pose proof (build_llm_client_key w) as Hkey.
  destruct (first_present w api_key_names) as [key|].
  - intros Hinst. by rewrite Hinst in Hkey.
  - cbn zeta. split; [done|]. split; [|done].
    apply run_llm_raise. by apply call_llm_no_client.
Qed.

End Credentials.

(** ** The route of [fastapi_app/main.py] *)

Section Route.

Variable run_flipflop :
  str → str → bool → bool → option str
  → M (str * bool * option str * pyval).

Implicit Types (payload : FlipFlopRequest) (tr : list event).

#[local] Abbreviation engine payload :=
  (run_flipflop (noun1 payload) (noun2 payload) (enforce_length payload)
     (request_image payload) (image_style_tail payload)).

(** A [FlipFlopError] of the engine becomes a 502 with the same text. *)
Lemma route_flipflop_error payload msg tr :
  engine payload = (Raise (FlipFlopError msg), tr) →
  fastapi_app.flipflop run_flipflop payload
  = (Raise (HTTPException 502 msg), tr).
Proof. intros Hrun. unfold fastapi_app.flipflop. by rewrite Hrun. Qed.

(** Any other exception is not caught. *)
Lemma route_other_error payload e tr :
  engine payload = (Raise e, tr) →
  (∀ msg, e ≠ FlipFlopError msg) →
  fastapi_app.flipflop run_flipflop payload = (Raise e, tr).
Proof.
  intros Hrun Hother. unfold fastapi_app.flipflop. rewrite Hrun.
  destruct e as [msg|status detail|msg]; try done. by destruct (Hother msg).
Qed.

Lemma route_failure_is_upstream payload msg tr :
  engine payload = (Raise (FlipFlopError msg), tr) →
  ∃ e, outcome (fastapi_app.flipflop run_flipflop payload) = Raise e
       ∧ upstream_failure_response e = true.
Proof.
  intros Hrun. rewrite (route_flipflop_error payload msg tr Hrun).
  by eexists.
Qed.

End Route.

(** ** The scenarios of the specification, run *)

Lemma llm_failure_fails_request_witness :
  outcome (flipflop prompt_heading scenario_A (request true true None))
  = Raise (UpstreamError (py "Connection error."))
  ∧ _call_flipflop_llm prompt_heading scenario_A (py "cat") (py "lamp")
    = (Raise (UpstreamError (py "Connection error.")),
       trace (flipflop prompt_heading scenario_A (request true true None)))
  ∧ existsb is_image_call
      (trace (flipflop prompt_heading scenario_A (request true true None)))
    = false
  ∧ ∀ r, outcome (flipflop prompt_heading scenario_A
                    (request true true None)) ≠ Return r.
Proof.
  apply (llm_failure_fails_request prompt_heading scenario_A
           (request true true None) (OpenAI (py "sk-test") None)
           (py "Connection error."));
    vm_compute; reflexivity.
Defined.

Lemma short_paragraph_violates_contract_witness :
  _enforce_length (repeat 120%N 400) true = Raise ContractViolationError
  ∧ flipflop prompt_heading scenario_E (request true false None)
    = (Raise ContractViolationError, [the_llm_call]).
Proof.
  destruct (short_paragraph_violates_contract prompt_heading
              (repeat 120%N 400)) as [Henforce Hrun].
  - vm_compute. lia.
  - split; [exact Henforce|].
    apply Hrun; vm_compute; reflexivity.
Defined.

Lemma unconfigured_backend_gives_no_image_witness :
  _maybe_generate_image scenario_D (py "a cat lamp") = (Return PNone, [])
  ∧ flipflop prompt_heading scenario_D
      (request true true (Some (py "oil painting")))
    = (Return {| paragraph := repeat 120%N 480;
                 truncated := false;
                 image_prompt :=
                   Some (_maybe_build_image_prompt (repeat 120%N 480)
                           (Some (py "oil painting")));
                 image_url := PNone |},
       [the_llm_call]).
Proof.
  destruct (unconfigured_backend_gives_no_image prompt_heading scenario_D)
    as [Hgenerate Hrun].
  - vm_compute. reflexivity.
  - split; [apply Hgenerate|].
    apply (Hrun (request true true (Some (py "oil painting")))
             (repeat 120%N 480));
      vm_compute; reflexivity.
Defined.

Lemma response_image_fields_witness :
  (is_Some (image_prompt scenario_C_response) ↔ true = true)
  ∧ (image_url scenario_C_response ≠ PNone
     → is_Some (image_prompt scenario_C_response)).
Proof.
  apply (response_image_fields prompt_heading scenario_C
           (request true true (Some (py "oil painting")))
           scenario_C_response
           [the_llm_call;
            image_post (py "http://img/generate")
              (repeat 120%N 480 ++ py " oil painting")]).
  vm_compute. reflexivity.
Defined.

Lemma image_url_from_json_object_witness :
  outcome (_maybe_generate_image scenario_C (py "a cat lamp"))
  = Return (PStr (py "http://x/y.png"))
  ∧ outcome (_maybe_generate_image fallback_world (py "a cat lamp"))
    = Return (PStr (py "http://x/z.png"))
  ∧ outcome (_maybe_generate_image empty_object_world (py "a cat lamp"))
    = Return PNone.
Proof.
  split; [|split].
  - refine (proj1 (image_url_from_json_object scenario_C
                     (py "http://img/generate") (py "a cat lamp")
                     {| raise_for_status := Returns tt;
                        json := Returns (PDict {[ py "url" :=
                                  PStr (py "http://x/y.png") ]}) |}
                     {[ py "url" := PStr (py "http://x/y.png") ]}
                     _ _ _ _ _) (PStr (py "http://x/y.png")) _ _);
      vm_compute; reflexivity.
  - refine (proj1 (proj2 (image_url_from_json_object fallback_world
                     (py "http://img/generate") (py "a cat lamp")
                     {| raise_for_status := Returns tt;
                        json := Returns (PDict {[ py "image_url" :=
                                  PStr (py "http://x/z.png") ]}) |}
                     {[ py "image_url" := PStr (py "http://x/z.png") ]}
                     _ _ _ _ _)) _);
      vm_compute; reflexivity.
  - refine (proj2 (proj2 (image_url_from_json_object empty_object_world
                     (py "http://img/generate") (py "a cat lamp")
                     {| raise_for_status := Returns tt;
                        json := Returns (PDict ∅) |}
                     ∅ _ _ _ _ _)) _ _);
      vm_compute; reflexivity.
Defined.

Lemma api_key_resolution_witness :
  ∃ c, _build_llm_client two_keys_world = Return c
       ∧ client_api_key c = py "az-test".
Proof.
  exact (api_key_resolution prompt_heading two_keys_world
           (request true false None) eq_refl).
Defined.

(** ** Where the code departs from the specification *)

(** C8. A successful response whose body is the JSON text [[]] parses, and
    has neither field; the adapter fails with the image-backend error
    instead of returning [None]. *)
Lemma json_array_reply_is_an_error :
  httpx_post array_reply_world (py "http://img/generate")
    (PDict {[ py "prompt" := PStr (py "a cat lamp") ]}) 60
  = ok_json (PList [])
  ∧ outcome (_maybe_generate_image array_reply_world (py "a cat lamp"))
    = Raise (HTTPException 502
               (py "Image backend error: 'list' object has no attribute 'get'"))
  ∧ outcome (_maybe_generate_image array_reply_world (py "a cat lamp"))
    ≠ Return PNone.
Proof. by vm_compute. Qed.

(** C6. With no key configured the request fails with the [RuntimeError] of
    [_build_llm_client], which is not a 502 response. *)
Lemma missing_key_is_not_a_502 :
  valid_request (request true false None) = true
  ∧ getenv bare_world (py "AZURE_OPENAI_API_KEY") = None
  ∧ getenv bare_world (py "OPENAI_API_KEY") = None
  ∧ getenv bare_world (py "OPENAI_APIKEY") = None
  ∧ flipflop prompt_heading bare_world (request true false None)
    = (Raise (RuntimeError
                (py "Missing OPENAI_API_KEY or AZURE_OPENAI_API_KEY.")), [])
  ∧ ¬ ∃ detail,
        outcome (flipflop prompt_heading bare_world
                   (request true false None))
        = Raise (HTTPException 502 detail).
Proof.
  repeat split; try (vm_compute; reflexivity).
  intros [detail Hdetail]. vm_compute in Hdetail. discriminate.
Qed.

(** * Further properties of the code *)

(** ** Trimming *)

Section Trimming.

Implicit Types (s ws : str) (c : char).

(** [lstrip] drops a run of white space from the front and nothing else. *)
Lemma lstrip_split s :
  ∃ ws, s = ws ++ lstrip s ∧ forallb isspace ws = true.
Proof.
  induction s as [|c s (ws & Hs & Hws)]; [by exists []|].
  cbn [lstrip]. destruct (isspace c) eqn:Hc; [|by exists []].
  exists (c :: ws). cbn [forallb]. rewrite Hc, Hws. split; [|done].
  cbn [app]. by rewrite <- Hs.
Qed.

(** [rstrip] does the same at the back. *)
Lemma rstrip_split s :
  ∃ ws, s = rstrip s ++ ws ∧ forallb isspace ws = true.
Proof.
  unfold rstrip. destruct (lstrip_split (rev s)) as (ws & Hs & Hws).
  exists (rev ws). split.
  - rewrite <- rev_app_distr, <- Hs. by rewrite rev_involutive.
  - rewrite forallb_forall in Hws. apply forallb_forall.
    intros c Hc. apply Hws. by apply in_rev.
Qed.

Lemma lstrip_head s c s' : lstrip s = c :: s' → isspace c = false.
Proof.
  induction s as [|a s IH]; [done|]. cbn [lstrip].
  destruct (isspace a) eqn:Ha; [done|]. by intros [= <- _].
Qed.

Lemma lstrip_fixed s :
  match s with [] => True | c :: _ => isspace c = false end →
  lstrip s = s.
Proof. destruct s as [|c s]; [done|]. cbn [lstrip]. by intros ->. Qed.

Lemma lstrip_idempotent s : lstrip (lstrip s) = lstrip s.
Proof.
  apply lstrip_fixed. destruct (lstrip s) as [|c s'] eqn:Hs; [done|].
  by apply (lstrip_head s c s').
Qed.

Lemma rstrip_idempotent s : rstrip (rstrip s) = rstrip s.
Proof. unfold rstrip. by rewrite rev_involutive, lstrip_idempotent. Qed.

(** Trimming the back leaves a trimmed front alone. *)
Lemma lstrip_rstrip s : lstrip (rstrip (lstrip s)) = rstrip (lstrip s).
Proof.
  apply lstrip_fixed.
  destruct (rstrip_split (lstrip s)) as (ws & Hs & _).
  destruct (rstrip (lstrip s)) as [|c r]; [done|].
  rewrite <- app_comm_cons in Hs. by apply (lstrip_head s c (r ++ ws)).
Qed.

Lemma strip_idempotent s : strip (strip s) = strip s.
Proof. unfold strip. by rewrite lstrip_rstrip, rstrip_idempotent. Qed.

(** What [strip] returns sits inside its argument, between two runs of
    white space. *)
Lemma strip_split s :
  ∃ ws1 ws2, s = ws1 ++ strip s ++ ws2
             ∧ forallb isspace ws1 = true ∧ forallb isspace ws2 = true.
Proof.
  destruct (lstrip_split s) as (ws1 & Hs1 & Hws1).
  destruct (rstrip_split (lstrip s)) as (ws2 & Hs2 & Hws2).
  exists ws1, ws2. unfold strip. by rewrite <- Hs2, <- Hs1.
Qed.

Lemma strip_length s : length (strip s) ≤ length s.
Proof.
  destruct (strip_split s) as (ws1 & ws2 & Hs & _).
  rewrite Hs at 2. rewrite !length_app. lia.
Qed.

End Trimming.

(** ** The length enforcer, completed *)

(** X1. The enforcer fails in one case only: enforcement is on and the
    paragraph has fewer than 450 characters; the failure is then the 502
    with the text about 450 characters. *)
Theorem enforce_failure_iff (p : str) (enforce : bool) (e : exn) :
  _enforce_length p enforce = Raise e
  ↔ enforce = true ∧ length p < 450 ∧ e = ContractViolationError.
Proof.
  split.
  - destruct enforce; [|by rewrite enforce_off].
    destruct (Nat.lt_ge_cases 500 (length p)) as [Hlong|Hle].
    { by rewrite (enforce_long p Hlong). }
    destruct (Nat.lt_ge_cases (length p) 450) as [Hshort|Hge].
    + rewrite (enforce_short p Hshort). by intros [= <-].
    + by rewrite (enforce_in_range p (conj Hge Hle)).
  - intros (-> & Hshort & ->). by apply enforce_short.
Qed.

(** X2. What the enforcer returns is a prefix of what it was given; it is
    marked truncated exactly when enforcement is on and the paragraph had
    more than 500 characters, and an unmarked result is the paragraph
    itself. *)
Theorem enforce_result_is_prefix (p q : str) (enforce t : bool) :
  _enforce_length p enforce = Return (q, t) →
  q `prefix_of` p
  ∧ (t = true ↔ enforce = true ∧ 500 < length p)
  ∧ (t = false → q = p).
Proof.
  destruct enforce.
  - destruct (Nat.lt_ge_cases 500 (length p)) as [Hlong|Hle].
    + rewrite (enforce_long p Hlong). intros [= <- <-].
      split; [apply prefix_take|]. by split.
    + destruct (Nat.lt_ge_cases (length p) 450) as [Hshort|Hge].
      * by rewrite (enforce_short p Hshort).
      * rewrite (enforce_in_range p (conj Hge Hle)). intros [= <- <-].
        split; [done|]. split; [|done]. split; [done|]. lia.
  - rewrite enforce_off. intros [= <- <-].
    split; [done|]. split; [|done]. split; [done|]. by intros [? _].
Qed.

Lemma enforce_result_is_prefix_witness :
  take 500 (repeat 120%N 520) `prefix_of` repeat 120%N 520
  ∧ (true = true ↔ true = true ∧ 500 < length (repeat 120%N 520))
  ∧ (true = false → take 500 (repeat 120%N 520) = repeat 120%N 520).
Proof.
  apply (enforce_result_is_prefix (repeat 120%N 520) _ true true).
  vm_compute. reflexivity.
Defined.

(** ** The image prompt builder, completed *)

(** X3. The built prompt always begins with the paragraph and is at most
    the paragraph, one space and the tail long. *)
Theorem build_extends_paragraph (p : str) (tail : option str) :
  p `prefix_of` _maybe_build_image_prompt p tail
  ∧ length (_maybe_build_image_prompt p tail)
    ≤ length p + 1 + length (default [] tail).
Proof.
  destruct tail as [[|c t]|]; cbn [_maybe_build_image_prompt];
    unfold default; cbn [from_option id].
  - split; [done|lia].
  - split; [by eexists|].
    rewrite !length_app. pose proof (strip_length (c :: t)) as Hstrip.
    change (length (py " ")) with 1. cbn [length] in *. lia.
  - split; [done|lia].
Qed.

(** X4. The paragraph comes back unchanged exactly when the tail is absent
    or empty; any other tail, white space included, makes the prompt
    longer. *)
Theorem build_unchanged_iff (p : str) (tail : option str) :
  _maybe_build_image_prompt p tail = p ↔ opt_truthy tail = false.
Proof.
  destruct tail as [[|c t]|]; cbn [_maybe_build_image_prompt opt_truthy
                                    str_truthy]; try done.
  split; [|done]. intros Heq. apply (f_equal length) in Heq.
  rewrite !length_app in Heq. change (length (py " ")) with 1 in Heq. lia.
Qed.

(** X5. White space around a tail that has content does not matter: the
    builder gives the same prompt for the tail and for the trimmed tail. *)
Theorem build_ignores_outer_space (p tail : str) :
  strip tail ≠ [] →
  _maybe_build_image_prompt p (Some tail)
  = _maybe_build_image_prompt p (Some (strip tail)).
Proof.
  intros Hne. rewrite (build_with_tail p tail Hne).
  rewrite (build_with_tail p (strip tail)); rewrite strip_idempotent; done.
Qed.

Lemma build_ignores_outer_space_witness :
  _maybe_build_image_prompt (py "abc") (Some (py "  oil painting "))
  = _maybe_build_image_prompt (py "abc")
      (Some (strip (py "  oil painting "))).
Proof.
  apply (build_ignores_outer_space (py "abc") (py "  oil painting ")).
  vm_compute. discriminate.
Defined.

(** ** The LLM client adapter, completed *)

Section AdapterMore.

Variable FLIPFLOP_SYSTEM_PROMPT : str.

Implicit Types (w : World) (payload : FlipFlopRequest) (c : client).
Implicit Types (names : list str) (key : str).

Lemma first_present_Some w names key :
  first_present w names = Some key →
  key ≠ [] ∧ ∃ name, name ∈ names ∧ getenv w name = Some key.
Proof.
  induction names as [|name names IH]; [done|]. cbn [first_present].
  destruct (getenv w name) as [[|a k]|] eqn:Hname.
  - intros (? & n & ? & ?)%IH. split; [done|]. exists n. split; [|done].
    by apply list_elem_of_further.
  - intros [= <-]. split; [done|]. exists name. split; [|done].
    apply list_elem_of_here.
  - intros (? & n & ? & ?)%IH. split; [done|]. exists n. split; [|done].
    by apply list_elem_of_further.
Qed.

Lemma model_name_first_present w :
  model_name w = default default_model (first_present w model_names).
Proof.
  unfold model_name, model_names, or_opt. cbn [first_present].
  destruct (getenv w (py "OPENAI_MODEL")) as [[|? ?]|];
    destruct (getenv w (py "AZURE_OPENAI_DEPLOYMENT")) as [[|? ?]|];
    done.
Qed.

(** X6. Which client is built. The Azure client is chosen exactly when
    [AZURE_OPENAI_ENDPOINT] is set and non-empty; it gets that endpoint and
    the configured API version, or ["2024-05-01-preview"]. Otherwise the
    generic client is built, with [OPENAI_BASE_URL], else
    [OPENAI_API_BASE], as its base URL. Either needs the [openai] package. *)
Theorem build_client_variant w c :
  _build_llm_client w = Return c →
  openai_installed w = true
  ∧ match c with
    | AzureOpenAI version endpoint _ =>
        getenv w (py "AZURE_OPENAI_ENDPOINT") = Some endpoint
        ∧ endpoint ≠ []
        ∧ version = or_str (getenv w (py "AZURE_OPENAI_API_VERSION"))
                      (py "2024-05-01-preview")
    | OpenAI _ base_url =>
        opt_truthy (getenv w (py "AZURE_OPENAI_ENDPOINT")) = false
        ∧ base_url = or_opt (getenv w (py "OPENAI_BASE_URL"))
                       (getenv w (py "OPENAI_API_BASE"))
    end.
Proof.
  unfold _build_llm_client.
  destruct (or_opt _ (getenv w (py "OPENAI_APIKEY"))) as [[|a k]|];
    try done.
  destruct (getenv w (py "AZURE_OPENAI_ENDPOINT")) as [[|b e]|];
    destruct (openai_installed w); cbn [negb]; try done;
    by intros [= <-].
Qed.

Lemma build_client_variant_witness :
  openai_installed azure_world = true
  ∧ getenv azure_world (py "AZURE_OPENAI_ENDPOINT")
    = Some (py "https://az.example")
  ∧ py "https://az.example" ≠ []
  ∧ py "2024-05-01-preview"
    = or_str (getenv azure_world (py "AZURE_OPENAI_API_VERSION"))
        (py "2024-05-01-preview").
Proof.
  apply (build_client_variant azure_world
           (AzureOpenAI (py "2024-05-01-preview") (py "https://az.example")
              (py "az-test"))).
  vm_compute. reflexivity.
Defined.

(** X7. A client is only ever built with a non-empty key, and the key is
    the value of one of the three recognized names. *)
Theorem client_key_from_environment w c :
  _build_llm_client w = Return c →
  client_api_key c ≠ []
  ∧ ∃ name, name ∈ api_key_names
            ∧ getenv w name = Some (client_api_key c).
Proof.
  intros Hc. pose proof (build_llm_client_key w) as Hkey.
  destruct (first_present w api_key_names) as [key|] eqn:Hfirst;
    [|by rewrite Hc in Hkey].
  destruct (openai_installed w); [|by rewrite Hc in Hkey].
  destruct Hkey as (c' & Hc' & <-). rewrite Hc in Hc'.
  injection Hc' as <-. by apply (first_present_Some w api_key_names).
Qed.

Lemma client_key_from_environment_witness :
  client_api_key (OpenAI (py "sk-test") None) ≠ []
  ∧ ∃ name, name ∈ api_key_names
            ∧ getenv scenario_A name
              = Some (client_api_key (OpenAI (py "sk-test") None)).
Proof.
  apply (client_key_from_environment scenario_A).
  vm_compute. reflexivity.
Defined.

(** X8. Without the [openai] package every request ends in a
    [RuntimeError] before anything is called, whatever is configured. *)
Theorem no_package_no_call w payload :
  openai_installed w = false →
  ∃ msg,
    _build_llm_client w = Raise (RuntimeError msg)
    ∧ flipflop FLIPFLOP_SYSTEM_PROMPT w payload
      = (Raise (RuntimeError msg), []).
Proof.
  intros Hinst. pose proof (build_llm_client_key w) as Hkey.
  rewrite Hinst in Hkey.
  destruct (first_present w api_key_names); eexists; (split; [exact Hkey|]);
    by apply run_llm_raise, call_llm_no_client.
Qed.

(** X9. A completion without candidates fails the request with a 502
    saying so, after the one LLM call. *)
Theorem no_choices_fails_request w payload c completion :
  _build_llm_client w = Return c →
  chat_completions_create w c (model_name w)
    (chat_messages FLIPFLOP_SYSTEM_PROMPT (strip (noun1 payload))
       (strip (noun2 payload))) 0
  = Returns completion →
  choices completion = [] →
  flipflop FLIPFLOP_SYSTEM_PROMPT w payload
  = (Raise (HTTPException 502 (py "LLM returned no choices.")),
     [LLMCall c (model_name w)
        (chat_messages FLIPFLOP_SYSTEM_PROMPT (strip (noun1 payload))
           (strip (noun2 payload))) 0]).
Proof.
  intros Hc Hreply Hnone. apply run_llm_raise.
  unfold _call_flipflop_llm. unfold_M. by rewrite Hc, Hreply, Hnone.
Qed.

(** X10. When the first candidate has no content, or only white space,
    the request fails with a 502 saying the content is empty. *)
Theorem blank_content_fails_request w payload c completion first rest :
  _build_llm_client w = Return c →
  chat_completions_create w c (model_name w)
    (chat_messages FLIPFLOP_SYSTEM_PROMPT (strip (noun1 payload))
       (strip (noun2 payload))) 0
  = Returns completion →
  choices completion = first :: rest →
  forallb isspace (or_str (message_content first) []) = true →
  flipflop FLIPFLOP_SYSTEM_PROMPT w payload
  = (Raise (HTTPException 502 (py "LLM returned empty content.")),
     [LLMCall c (model_name w)
        (chat_messages FLIPFLOP_SYSTEM_PROMPT (strip (noun1 payload))
           (strip (noun2 payload))) 0]).
Proof.
  intros Hc Hreply Hfirst Hblank. apply run_llm_raise.
  unfold _call_flipflop_llm. unfold_M. rewrite Hc, Hreply, Hfirst.
  by rewrite (strip_spaces _ Hblank).
Qed.

(** X11. A paragraph the adapter returns is the trimmed content of the
    first candidate: it is not empty, has no white space at either end,
    and later candidates play no part. *)
Theorem llm_paragraph_is_trimmed w n1 n2 p tr :
  _call_flipflop_llm FLIPFLOP_SYSTEM_PROMPT w n1 n2 = (Return p, tr) →
  p ≠ [] ∧ strip p = p
  ∧ ∃ c completion first rest,
      _build_llm_client w = Return c
      ∧ chat_completions_create w c (model_name w)
          (chat_messages FLIPFLOP_SYSTEM_PROMPT n1 n2) 0
        = Returns completion
      ∧ choices completion = first :: rest
      ∧ p = strip (or_str (message_content first) []).
Proof.
  unfold _call_flipflop_llm. unfold_M.
  destruct (_build_llm_client w) as [c|e] eqn:Hc; [|done].
  destruct (chat_completions_create _ _ _ _ _)
    as [[[|first rest]]|exc] eqn:Hreply; try done.
  cbn [choices].
  destruct (strip (or_str (message_content first) [])) as [|a p'] eqn:Hp;
    [done|].
  cbn [str_truthy negb]. intros [= <- _]. split; [done|].
  split; [by rewrite <- Hp, strip_idempotent|].
  by exists c, {| choices := first :: rest |}, first, rest.
Qed.

End AdapterMore.

Lemma no_package_no_call_witness :
  ∃ msg,
    _build_llm_client no_package_world = Raise (RuntimeError msg)
    ∧ flipflop prompt_heading no_package_world (request true true None)
      = (Raise (RuntimeError msg), []).
Proof.
  apply (no_package_no_call prompt_heading no_package_world).
  reflexivity.
Defined.

Lemma no_choices_fails_request_witness :
  flipflop prompt_heading no_choices_world (request true false None)
  = (Raise (HTTPException 502 (py "LLM returned no choices.")),
     [the_llm_call]).
Proof.
  apply (no_choices_fails_request prompt_heading no_choices_world
           (request true false None) (OpenAI (py "sk-test") None)
           {| choices := [] |});
    vm_compute; reflexivity.
Defined.

Lemma blank_content_fails_request_witness :
  flipflop prompt_heading blank_content_world (request true false None)
  = (Raise (HTTPException 502 (py "LLM returned empty content.")),
     [the_llm_call]).
Proof.
  apply (blank_content_fails_request prompt_heading blank_content_world
           (request true false None) (OpenAI (py "sk-test") None)
           {| choices := [ {| message_content := Some (py "  ") |} ] |}
           {| message_content := Some (py "  ") |} []);
    vm_compute; reflexivity.
Defined.

Lemma llm_paragraph_is_trimmed_witness :
  py "a b" ≠ [] ∧ strip (py "a b") = py "a b"
  ∧ ∃ c completion first rest,
      _build_llm_client padded_content_world = Return c
      ∧ chat_completions_create padded_content_world c
          (model_name padded_content_world)
          (chat_messages prompt_heading (py "cat") (py "lamp")) 0
        = Returns completion
      ∧ choices completion = first :: rest
      ∧ py "a b" = strip (or_str (message_content first) []).
Proof.
  apply (llm_paragraph_is_trimmed prompt_heading padded_content_world
           (py "cat") (py "lamp") (py "a b") [the_llm_call]).
  vm_compute. reflexivity.
Defined.

(** ** The image client adapter, completed *)

Section ImageAdapterMore.

Implicit Types (w : World) (url prompt exc : str) (resp : response).
Implicit Types (d : gmap str pyval) (e : exn).

(** The adapter, once the endpoint is known. *)
Lemma generate_configured w url prompt :
  getenv w (py "IMAGE_API_URL") = Some url → str_truthy url = true →
  _maybe_generate_image w prompt
  = (match httpx_post w url (PDict {[ py "prompt" := PStr prompt ]}) 60 with
     | Raises exc => Raise (ImageBackendError exc)
     | Returns resp =>
         match raise_for_status resp with
         | Raises exc => Raise (ImageBackendError exc)
         | Returns _ =>
             match json resp with
             | Raises exc => Raise (ImageBackendError exc)
             | Returns (PDict d) =>
                 Return (or_val (dict_get d (py "url"))
                           (dict_get d (py "image_url")))
             | Returns data =>
                 Raise (ImageBackendError (attribute_error data (py "get")))
             end
         end
     end, [image_post url prompt]).
Proof.
  intros Henv Hurl. unfold _maybe_generate_image. rewrite Henv.
  destruct url as [|a url]; [done|]. unfold_M.
  destruct (httpx_post _ _ _ _) as [resp|exc]; [|done].
  destruct (raise_for_status resp) as [[]|exc]; [|done].
  by destruct (json resp) as [[| | | | | |d]|exc].
Qed.

Lemma generate_unconfigured w prompt :
  opt_truthy (getenv w (py "IMAGE_API_URL")) = false →
  _maybe_generate_image w prompt = (Return PNone, []).
Proof.
  intros Hurl. unfold _maybe_generate_image.
  by destruct (getenv w _) as [[|? ?]|].
Qed.

(** Every failure of the adapter is an image-backend 502. *)
Lemma generate_raise w prompt e :
  outcome (_maybe_generate_image w prompt) = Raise e →
  ∃ cause, e = ImageBackendError cause.
Proof.
  destruct (getenv w (py "IMAGE_API_URL")) as [[|a url]|] eqn:Henv;
    try (by rewrite generate_unconfigured; [|rewrite Henv]).
  rewrite (generate_configured w (a :: url) prompt Henv eq_refl).
  unfold outcome. cbn [fst].
  destruct (httpx_post _ _ _ _) as [resp|exc]; [|intros [= <-]; by eexists].
  destruct (raise_for_status resp) as [[]|exc];
    [|intros [= <-]; by eexists].
  destruct (json resp) as [[| | | | | |d]|exc]; try done;
    intros [= <-]; by eexists.
Qed.

(** The adapter posts at most once, and only when it is configured. *)
Lemma generate_trace w prompt :
  trace (_maybe_generate_image w prompt) = []
  ∨ ∃ url, getenv w (py "IMAGE_API_URL") = Some url
           ∧ trace (_maybe_generate_image w prompt) = [image_post url prompt].
Proof.
  destruct (getenv w (py "IMAGE_API_URL")) as [[|a url]|] eqn:Henv;
    try (left; by rewrite generate_unconfigured; [|rewrite Henv]).
  right. exists (a :: url). split; [done|].
  by rewrite (generate_configured w (a :: url) prompt Henv eq_refl).
Qed.

(** X12. With an endpoint configured, a transport failure, a non-success
    status and a body that is not JSON each fail with the image-backend
    502, which carries the text of the underlying exception. *)
Theorem image_backend_failures w url prompt exc :
  getenv w (py "IMAGE_API_URL") = Some url → str_truthy url = true →
  httpx_post w url (PDict {[ py "prompt" := PStr prompt ]}) 60 = Raises exc
  ∨ (∃ resp,
       httpx_post w url (PDict {[ py "prompt" := PStr prompt ]}) 60
       = Returns resp
       ∧ (raise_for_status resp = Raises exc
          ∨ raise_for_status resp = Returns tt ∧ json resp = Raises exc)) →
  _maybe_generate_image w prompt
  = (Raise (HTTPException 502 (py "Image backend error: " ++ exc)),
     [image_post url prompt]).
Proof.
  intros Henv Hurl Hfail.
  rewrite (generate_configured w url prompt Henv Hurl).
  destruct Hfail as [->|(resp & -> & [->|[-> ->]])]; done.
Qed.

(** X13. The image adapter raises nothing but 502s whose detail starts
    with ["Image backend error: "]. *)
Theorem image_errors_are_502 w prompt e :
  outcome (_maybe_generate_image w prompt) = Raise e →
  ∃ cause, e = HTTPException 502 (py "Image backend error: " ++ cause).
Proof. apply generate_raise. Qed.

(** X14. With an endpoint configured the adapter makes exactly one POST,
    to that endpoint, with the body [{"prompt": prompt}] and a timeout of
    60 seconds, whatever the backend then answers. *)
Theorem image_posts_once w url prompt :
  getenv w (py "IMAGE_API_URL") = Some url → str_truthy url = true →
  trace (_maybe_generate_image w prompt)
  = [ImagePost url (PDict {[ py "prompt" := PStr prompt ]}) 60].
Proof.
  intros Henv Hurl. by rewrite (generate_configured w url prompt Henv Hurl).
Qed.

(** X15. A [url] field that holds a falsy value (an empty string, [null],
    [0], [false], an empty list or object) is passed over: the adapter
    returns what [image_url] holds, or [None]. *)
Theorem falsy_url_falls_back w url prompt resp d v :
  getenv w (py "IMAGE_API_URL") = Some url → str_truthy url = true →
  httpx_post w url (PDict {[ py "prompt" := PStr prompt ]}) 60
  = Returns resp →
  raise_for_status resp = Returns tt →
  json resp = Returns (PDict d) →
  d !! py "url" = Some v → truthy v = false →
  outcome (_maybe_generate_image w prompt)
  = Return (dict_get d (py "image_url")).
Proof.
  intros Henv Hurl Hpost Hstatus Hjson Hv Hfalsy.
  rewrite (generate_on_object w url prompt resp d Henv Hurl Hpost Hstatus
             Hjson).
  unfold outcome, or_val. cbn [fst].
  replace (dict_get d (py "url")) with v; [by rewrite Hfalsy|].
  unfold dict_get. by rewrite Hv.
Qed.

End ImageAdapterMore.

Lemma image_backend_failures_witness :
  _maybe_generate_image timeout_world (py "a cat lamp")
  = (Raise (HTTPException 502 (py "Image backend error: " ++ py "timed out")),
     [image_post (py "http://img/generate") (py "a cat lamp")])
  ∧ _maybe_generate_image status_500_world (py "a cat lamp")
    = (Raise (HTTPException 502
                (py "Image backend error: " ++ py "Server error '500'")),
       [image_post (py "http://img/generate") (py "a cat lamp")])
  ∧ _maybe_generate_image not_json_world (py "a cat lamp")
    = (Raise (HTTPException 502
                (py "Image backend error: " ++ py "Expecting value")),
       [image_post (py "http://img/generate") (py "a cat lamp")]).
Proof.
  split; [|split].
  - apply (image_backend_failures timeout_world (py "http://img/generate"));
      [vm_compute; reflexivity..|].
    left. reflexivity.
  - apply (image_backend_failures status_500_world
             (py "http://img/generate"));
      [vm_compute; reflexivity..|].
    right. eexists. split; [reflexivity|]. left. reflexivity.
  - apply (image_backend_failures not_json_world
             (py "http://img/generate"));
      [vm_compute; reflexivity..|].
    right. eexists. split; [reflexivity|]. right. split; reflexivity.
Defined.

Lemma image_errors_are_502_witness :
  ∃ cause,
    HTTPException 502 (py "Image backend error: timed out")
    = HTTPException 502 (py "Image backend error: " ++ cause).
Proof.
  apply (image_errors_are_502 timeout_world (py "a cat lamp")).
  vm_compute. reflexivity.
Defined.

Lemma image_posts_once_witness :
  trace (_maybe_generate_image status_500_world (py "a cat lamp"))
  = [ImagePost (py "http://img/generate")
       (PDict {[ py "prompt" := PStr (py "a cat lamp") ]}) 60].
Proof.
  apply (image_posts_once status_500_world (py "http://img/generate"));
    vm_compute; reflexivity.
Defined.

Lemma falsy_url_falls_back_witness :
  outcome (_maybe_generate_image empty_url_world (py "a cat lamp"))
  = Return (dict_get (<[ py "url" := PStr [] ]>
                        {[ py "image_url" := PStr (py "http://x/z.png") ]})
              (py "image_url")).
Proof.
  apply (falsy_url_falls_back empty_url_world (py "http://img/generate")
           (py "a cat lamp")
           {| raise_for_status := Returns tt;
              json := Returns (PDict (<[ py "url" := PStr [] ]>
                         {[ py "image_url" := PStr (py "http://x/z.png") ]}))
           |}
           _ (PStr []));
    vm_compute; reflexivity.
Defined.

(** ** The orchestrator, completed *)

Section OrchestratorMore.

Variable FLIPFLOP_SYSTEM_PROMPT : str.

#[local] Abbreviation call_llm := (_call_flipflop_llm FLIPFLOP_SYSTEM_PROMPT).
#[local] Abbreviation run := (flipflop FLIPFLOP_SYSTEM_PROMPT).
#[local] Abbreviation messages_for := (chat_messages FLIPFLOP_SYSTEM_PROMPT).

Implicit Types (w : World) (payload : FlipFlopRequest) (c : client).
Implicit Types (p : str) (tr : list event) (e : exn).



Lemma call_llm_nonempty w n1 n2 p tr :
  call_llm w n1 n2 = (Return p, tr) → p ≠ [].
Proof.
  unfold _call_flipflop_llm. unfold_M.
  destruct (_build_llm_client w) as [c|e]; [|done].
  destruct (chat_completions_create _ _ _ _ _) as [[[|first rest]]|exc];
    try done.
  cbn [choices]. destruct (strip _) as [|a p']; [done|].
  by intros [= <- _].
Qed.

(** What a request calls: what the adapter calls, then at most the one
    POST of a request that asked for an image. *)
Lemma run_trace_cases w payload :
  ∃ tr',
    trace (run w payload)
    = trace (call_llm w (strip (noun1 payload)) (strip (noun2 payload)))
      ++ tr'
    ∧ (tr' = []
       ∨ request_image payload = true
         ∧ (∃ p, outcome (call_llm w (strip (noun1 payload))
                            (strip (noun2 payload))) = Return p)
         ∧ ∃ url prompt, tr' = [image_post url prompt]).
Proof.
  destruct (call_llm w (strip (noun1 payload)) (strip (noun2 payload)))
    as [[p0|e] tr0] eqn:Hllm.
  - destruct (_enforce_length p0 (enforce_length payload)) as [[p t]|e]
      eqn:Henf.
    + destruct (request_image payload) eqn:Himg.
      * rewrite (run_with_image _ w payload p0 p t tr0 Hllm Henf Himg).
        cbn zeta.
        destruct (generate_trace w
                    (_maybe_build_image_prompt p (image_style_tail payload)))
          as [Hnil|(url & _ & Hpost)];
          destruct (_maybe_generate_image w _) as [[u|e] tr'];
          unfold trace in *; cbn [snd] in *; subst tr'.
        -- exists []. by split; [|left].
        -- exists []. by split; [|left].
        -- eexists. split; [done|]. right. split; [done|].
           split; by eauto.
        -- eexists. split; [done|]. right. split; [done|].
           split; by eauto.
      * rewrite (run_without_image _ w payload p0 p t tr0 Hllm Henf Himg).
        exists []. cbn. rewrite app_nil_r. by split; [|left].
    + rewrite (run_enforce_raise _ w payload p0 e tr0 Hllm Henf).
      exists []. cbn. rewrite app_nil_r. by split; [|left].
  - rewrite (run_llm_raise _ w payload e tr0 Hllm).
    exists []. cbn. rewrite app_nil_r. by split; [|left].
Qed.

Lemma call_llm_trace_cases w n1 n2 :
  trace (call_llm w n1 n2) = []
  ∨ ∃ c, _build_llm_client w = Return c
         ∧ trace (call_llm w n1 n2)
           = [LLMCall c (model_name w) (messages_for n1 n2) 0].
Proof.
  destruct (_build_llm_client w) as [c|e] eqn:Hc.
  - right. exists c. split; [done|]. by apply call_llm_trace.
  - left. by rewrite (call_llm_no_client _ w n1 n2 e Hc).
Qed.

(** X16. A request calls the LLM at most once and the image backend at
    most once, in that order; the image backend is called only for a
    request that asked for an image, and only after the LLM was called. *)
Theorem calls_in_order w payload :
  ∃ llm_calls image_calls,
    trace (flipflop FLIPFLOP_SYSTEM_PROMPT w payload)
    = llm_calls ++ image_calls
    ∧ length llm_calls ≤ 1 ∧ length image_calls ≤ 1
    ∧ existsb is_image_call llm_calls = false
    ∧ forallb is_image_call image_calls = true
    ∧ (image_calls ≠ [] → request_image payload = true ∧ llm_calls ≠ []).
Proof.
  destruct (run_trace_cases w payload) as (tr' & -> & Htr').
  exists (trace (call_llm w (strip (noun1 payload)) (strip (noun2 payload)))),
         tr'.
  split; [done|].
  destruct (call_llm_trace_cases w (strip (noun1 payload))
              (strip (noun2 payload))) as [Hnil|(c & Hc & Hone)].
  - rewrite Hnil in *. destruct Htr' as [->|(Himg & [p Hp] & _)].
    + repeat split; cbn; try done; lia.
    + exfalso.
      destruct (call_llm w (strip (noun1 payload)) (strip (noun2 payload)))
        as [[p0|e] tr0] eqn:Hllm; [|done].
      destruct (_build_llm_client w) as [c|e] eqn:Hc.
      * pose proof (call_llm_trace FLIPFLOP_SYSTEM_PROMPT w
                      (strip (noun1 payload)) (strip (noun2 payload)) c Hc)
          as Hone.
        rewrite Hllm in Hone. by rewrite Hone in Hnil.
      * by rewrite (call_llm_no_client FLIPFLOP_SYSTEM_PROMPT w _ _ e Hc)
          in Hllm.
  - rewrite Hone. destruct Htr' as [->|(Himg & _ & url & prompt & ->)];
      repeat split; cbn; try done; lia.
Qed.

(** X17. Every completion request of a request goes to the client built
    from the environment, at temperature 0, for the model named by
    [OPENAI_MODEL], else [AZURE_OPENAI_DEPLOYMENT], else ["gpt-4o-mini"],
    with two messages: the system prompt, and the two trimmed nouns as
    ["A: ..."] and ["B: ..."] on two lines. *)
Theorem llm_request_shape w payload c model messages temperature :
  LLMCall c model messages temperature
    ∈ trace (flipflop FLIPFLOP_SYSTEM_PROMPT w payload) →
  _build_llm_client w = Return c
  ∧ temperature = 0%Z
  ∧ model = default default_model (first_present w model_names)
  ∧ messages
    = [ {| role := py "system"; content := FLIPFLOP_SYSTEM_PROMPT |};
        user_message (strip (noun1 payload)) (strip (noun2 payload)) ].
Proof.
  destruct (run_trace_cases w payload) as (tr' & -> & Htr').
  intros [Hin|Hin]%elem_of_app.
  - destruct (call_llm_trace_cases w (strip (noun1 payload))
                (strip (noun2 payload))) as [Hnil|(c' & Hc & Hone)].
    + rewrite Hnil in Hin. by apply elem_of_nil in Hin.
    + rewrite Hone in Hin. apply list_elem_of_singleton in Hin.
      injection Hin as -> -> -> ->. split; [done|]. split; [done|].
      split; [apply model_name_first_present|done].
  - destruct Htr' as [->|(_ & _ & url & prompt & ->)].
    + by apply elem_of_nil in Hin.
    + by apply list_elem_of_singleton in Hin.
Qed.

End OrchestratorMore.

Lemma llm_request_shape_witness :
  _build_llm_client scenario_C = Return (OpenAI (py "sk-test") None)
  ∧ 0%Z = 0%Z
  ∧ py "gpt-4o-mini" = default default_model (first_present scenario_C model_names)
  ∧ chat_messages prompt_heading (py "cat") (py "lamp")
    = [ {| role := py "system"; content := prompt_heading |};
        user_message (strip (py "cat")) (strip (py " lamp ")) ].
Proof.
  apply (llm_request_shape prompt_heading scenario_C
           (request true true (Some (py "oil painting")))).
  vm_compute. apply list_elem_of_here.
Defined.

(** ** What a request returns *)

Section Responses.

Variable FLIPFLOP_SYSTEM_PROMPT : str.

#[local] Abbreviation call_llm := (_call_flipflop_llm FLIPFLOP_SYSTEM_PROMPT).
#[local] Abbreviation run := (flipflop FLIPFLOP_SYSTEM_PROMPT).

Implicit Types (w : World) (payload : FlipFlopRequest).
Implicit Types (p : str) (tr : list event) (e : exn) (r : FlipFlopResponse).

(** A response comes from a paragraph of the LLM that passed the
    enforcer. *)
Lemma run_returns w payload r tr :
  run w payload = (Return r, tr) →
  ∃ p0 tr0,
    call_llm w (strip (noun1 payload)) (strip (noun2 payload))
    = (Return p0, tr0)
    ∧ _enforce_length p0 (enforce_length payload)
      = Return (paragraph r, truncated r)
    ∧ (if request_image payload then
         image_prompt r
         = Some (_maybe_build_image_prompt (paragraph r)
                   (image_style_tail payload))
       else image_prompt r = None ∧ image_url r = PNone).
Proof.
  intros Hrun.
  destruct (call_llm w (strip (noun1 payload)) (strip (noun2 payload)))
    as [[p0|e] tr0] eqn:Hllm;
    [|by rewrite (run_llm_raise _ w payload e tr0 Hllm) in Hrun].
  destruct (_enforce_length p0 (enforce_length payload)) as [[p t]|e]
    eqn:Henf;
    [|by rewrite (run_enforce_raise _ w payload p0 e tr0 Hllm Henf) in Hrun].
  exists p0, tr0. split; [done|].
  destruct (request_image payload) eqn:Himg.
  - rewrite (run_with_image _ w payload p0 p t tr0 Hllm Henf Himg) in Hrun.
    cbn zeta in Hrun.
    destruct (_maybe_generate_image w _) as [[u|e] tr']; [|done].
    by injection Hrun as <- _.
  - rewrite (run_without_image _ w payload p0 p t tr0 Hllm Henf Himg)
      in Hrun.
    by injection Hrun as <- _.
Qed.

(** X18. When the image backend fails, the request fails with that error
    although the paragraph was already obtained: no response is returned. *)
Theorem image_failure_fails_request w payload p0 p t tr e :
  call_llm w (strip (noun1 payload)) (strip (noun2 payload))
  = (Return p0, tr) →
  _enforce_length p0 (enforce_length payload) = Return (p, t) →
  request_image payload = true →
  outcome (_maybe_generate_image w
             (_maybe_build_image_prompt p (image_style_tail payload)))
  = Raise e →
  outcome (flipflop FLIPFLOP_SYSTEM_PROMPT w payload) = Raise e
  ∧ upstream_failure_response e = true.
Proof.
  intros Hllm Henf Himg Hfail.
  rewrite (run_with_image _ w payload p0 p t tr Hllm Henf Himg). cbn zeta.
  destruct (generate_raise w _ e Hfail) as [cause ->].
  destruct (_maybe_generate_image w _) as [[u|e'] tr']; [done|].
  unfold outcome in *. cbn [fst] in *. by injection Hfail as ->.
Qed.

(** X19. With length enforcement on, the paragraph of every response has
    between 450 and 500 characters. *)
Theorem paragraph_within_contract w payload r tr :
  flipflop FLIPFLOP_SYSTEM_PROMPT w payload = (Return r, tr) →
  enforce_length payload = true →
  450 ≤ length (paragraph r) ≤ 500.
Proof.
  intros (p0 & tr0 & _ & Henf & _)%run_returns Hflag.
  rewrite Hflag in Henf. by apply (enforce_returns_in_range p0 _ _ Henf).
Qed.

(** X20. The paragraph of a response is the trimmed answer of the LLM or,
    when that is longer than 500 characters and enforcement is on, its
    first 500 characters, and [truncated] says which; it is never empty. *)
Theorem paragraph_from_llm w payload r tr :
  flipflop FLIPFLOP_SYSTEM_PROMPT w payload = (Return r, tr) →
  ∃ p0,
    outcome (_call_flipflop_llm FLIPFLOP_SYSTEM_PROMPT w
               (strip (noun1 payload)) (strip (noun2 payload)))
    = Return p0
    ∧ paragraph r ≠ []
    ∧ (truncated r = true
       ↔ enforce_length payload = true ∧ 500 < length p0)
    ∧ paragraph r = (if truncated r then take 500 p0 else p0).
Proof.
  intros (p0 & tr0 & Hllm & Henf & _)%run_returns.
  exists p0. rewrite Hllm. split; [done|].
  pose proof (call_llm_nonempty _ w _ _ p0 tr0 Hllm) as Hne.
  destruct (enforce_length payload).
  - pose proof (enforce_returns_in_range p0 _ _ Henf) as Hrange.
    split; [intros Hnil; rewrite Hnil in Hrange; cbn in Hrange; lia|].
    destruct (Nat.lt_ge_cases 500 (length p0)) as [Hlong|Hle].
    + rewrite (enforce_long p0 Hlong) in Henf.
      injection Henf as <- <-. by repeat split.
    + destruct (Nat.lt_ge_cases (length p0) 450) as [Hshort|Hge].
      * by rewrite (enforce_short p0 Hshort) in Henf.
      * rewrite (enforce_in_range p0 (conj Hge Hle)) in Henf.
        injection Henf as <- <-. split; [|done].
        split; [done|]. lia.
  - rewrite enforce_off in Henf. injection Henf as <- <-.
    split; [done|]. split; [|done]. split; [done|]. by intros [? _].
Qed.

(** X21. The image prompt of a response is built from the paragraph that
    the response carries, the truncated one if it was truncated, and so
    begins with it. *)
Theorem image_prompt_from_paragraph w payload r tr prompt :
  flipflop FLIPFLOP_SYSTEM_PROMPT w payload = (Return r, tr) →
  image_prompt r = Some prompt →
  prompt
  = _maybe_build_image_prompt (paragraph r) (image_style_tail payload)
  ∧ paragraph r `prefix_of` prompt.
Proof.
  intros (p0 & tr0 & _ & _ & Himg)%run_returns Hprompt.
  destruct (request_image payload).
  - rewrite Himg in Hprompt. injection Hprompt as <-. split; [done|].
    destruct (image_style_tail payload) as [[|a t]|];
      cbn [_maybe_build_image_prompt]; try done. by eexists.
  - destruct Himg as [Hnone _]. by rewrite Hnone in Hprompt.
Qed.


End Responses.

Lemma image_failure_fails_request_witness :
  outcome (flipflop prompt_heading timeout_world
             (request true true (Some (py "oil painting"))))
  = Raise (HTTPException 502 (py "Image backend error: timed out"))
  ∧ upstream_failure_response
      (HTTPException 502 (py "Image backend error: timed out")) = true.
Proof.
  apply (image_failure_fails_request prompt_heading timeout_world
           (request true true (Some (py "oil painting")))
           (repeat 120%N 480) (repeat 120%N 480) false [the_llm_call]);
    vm_compute; reflexivity.
Defined.

Lemma paragraph_within_contract_witness :
  450 ≤ length (paragraph long_content_response) ≤ 500.
Proof.
  apply (paragraph_within_contract prompt_heading long_content_world
           (request true true (Some (py "oil painting")))
           long_content_response
           [the_llm_call;
            image_post (py "http://img/generate")
              (take 500 (repeat 120%N 520) ++ py " oil painting")]);
    vm_compute; reflexivity.
Defined.

Lemma paragraph_from_llm_witness :
  ∃ p0,
    outcome (_call_flipflop_llm prompt_heading long_content_world
               (strip (py "cat")) (strip (py " lamp ")))
    = Return p0
    ∧ paragraph long_content_response ≠ []
    ∧ (truncated long_content_response = true
       ↔ true = true ∧ 500 < length p0)
    ∧ paragraph long_content_response
      = (if truncated long_content_response then take 500 p0 else p0).
Proof.
  apply (paragraph_from_llm prompt_heading long_content_world
           (request true true (Some (py "oil painting")))
           long_content_response
           [the_llm_call;
            image_post (py "http://img/generate")
              (take 500 (repeat 120%N 520) ++ py " oil painting")]).
  vm_compute. reflexivity.
Defined.

Lemma image_prompt_from_paragraph_witness :
  take 500 (repeat 120%N 520) ++ py " oil painting"
  = _maybe_build_image_prompt (paragraph long_content_response)
      (Some (py "oil painting"))
  ∧ paragraph long_content_response
      `prefix_of` take 500 (repeat 120%N 520) ++ py " oil painting".
Proof.
  apply (image_prompt_from_paragraph prompt_heading long_content_world
           (request true true (Some (py "oil painting")))
           long_content_response
           [the_llm_call;
            image_post (py "http://img/generate")
              (take 500 (repeat 120%N 520) ++ py " oil painting")]);
    vm_compute; reflexivity.
Defined.


(** ** The route of [fastapi_app/main.py], completed *)


